(** * Thiha Shop: charge-request approval and purchase workflows

    A shallow embedding of the two source files of the shop:

    - [app/api/charge-requests/route.ts], the HTTP handlers [GET], [POST],
      [PUT] and [OPTIONS] over the tables [ChargeRequests] and [Users];
    - [app/page.tsx], the purchase page: the cart held in React state, the
      item-selection modal and [handlePurchase].

    Conventions of the embedding.

    - A JavaScript value that reaches [PUT] in the request body is a
      [JsValue]; a JavaScript [number] on that path is an IEEE 754 binary64
      value ([spec_float] of the standard library, precision 53, [emax]
      1024), so that [NaN] and the infinities that [Number.isFinite] tests
      for exist in the model.
    - Amounts, balances, prices and quantities are integers (the tables hold
      integer columns and the catalogue integer prices).  They are modelled
      in [Z]; JavaScript computes [+], [-] and [*] on them exactly as long as
      the results stay below 2^53 in magnitude, which is the range the
      model covers.
    - A JavaScript string is a [string] whose characters are its code units
      (code units up to 255).
    - The server side threads the database through a small state monad that
      also records, in order, every store operation a handler issues.  The
      store operations themselves are taken to succeed: the handlers ignore
      the error result of both updates of [PUT], and a failed lookup is
      indistinguishable in [PUT] from an absent row. *)

From Stdlib Require Import ZArith List String Ascii Bool Lia SpecFloat.
From stdpp Require Import base option list gmap strings pretty sorting.

Set Warnings "-register-all".
Open Scope string_scope.
Open Scope list_scope.
Open Scope Z_scope.

(** ** JavaScript values and the built-ins the handlers call *)

Module Js.

(** IEEE 754 binary64. *)
Definition prec : Z := 53.
Definition emax : Z := 1024.

Abbreviation number := spec_float.

Definition NaN : number := S754_nan.
Definition Infinity : number := S754_infinity false.
Definition zero : number := S754_zero false.

(** The values [JSON.parse] produces, plus [undefined], which is what
    reading a missing property yields.  An object is the list of its own
    properties in creation order. *)
Inductive JsValue : Type :=
| JsUndefined
| JsNull
| JsBoolean (b : bool)
| JsNumber (x : number)
| JsString (s : string)
| JsArray (elems : list JsValue)
| JsObject (props : list (string * JsValue)).

(** A thrown exception, with the text of its [message] property. *)
Inductive Completion (A : Type) : Type :=
| Normal (a : A)
| Throw (message : string).
Arguments Normal {A} a.
Arguments Throw {A} message.

(** [o[k]] for an own data property; when [JSON.parse] met the key several
    times, the last occurrence is the one that stays. *)
Fixpoint own_property (k : string) (props : list (string * JsValue))
  : option JsValue :=
  match props with
  | [] => None
  | (k', v) :: rest =>
      match own_property k rest with
      | Some v' => Some v'
      | None => if String.eqb k k' then Some v else None
      end
  end.

(** [v == null] *)
Definition is_nullish (v : JsValue) : bool :=
  match v with
  | JsUndefined | JsNull => true
  | _ => false
  end.

(** [Number.isFinite(x)] *)
Definition Number_isFinite (x : number) : bool :=
  match x with
  | S754_zero _ | S754_finite _ _ _ => true
  | S754_infinity _ | S754_nan => false
  end.

(** *** [StringToNumber]: the numeric reading of a string *)

(** White space and line terminators, among the code units up to 255:
    TAB, LF, VT, FF, CR, SP and NBSP. *)
Definition is_StrWhiteSpaceChar (c : ascii) : bool :=
  let n := nat_of_ascii c in
  ((9 <=? n) && (n <=? 13))%nat || (n =? 32)%nat || (n =? 160)%nat.

Fixpoint drop_ws (l : list ascii) : list ascii :=
  match l with
  | c :: l' => if is_StrWhiteSpaceChar c then drop_ws l' else l
  | [] => []
  end.

Definition trim (l : list ascii) : list ascii :=
  rev (drop_ws (rev (drop_ws l))).

(** The value of a digit in radix up to 16, [None] for any other code unit. *)
Definition digit_value (c : ascii) : option Z :=
  let n := Z.of_nat (nat_of_ascii c) in
  if (48 <=? n) && (n <=? 57) then Some (n - 48)
  else if (97 <=? n) && (n <=? 102) then Some (n - 87)
  else if (65 <=? n) && (n <=? 70) then Some (n - 55)
  else None.

Definition digit_in (radix : Z) (c : ascii) : option Z :=
  match digit_value c with
  | Some d => if d <? radix then Some d else None
  | None => None
  end.

(** Reads the longest prefix of digits of the radix: the number read so
    far, how many digits were read, and the rest of the input. *)
Fixpoint read_digits (radix : Z) (l : list ascii) (acc : Z) (n : Z)
  : Z * Z * list ascii :=
  match l with
  | c :: l' =>
      match digit_in radix c with
      | Some d => read_digits radix l' (acc * radix + d) (n + 1)
      | None => (acc, n, l)
      end
  | [] => (acc, n, [])
  end.

(** The binary64 value nearest to [m * 10 ^ e10] (ties to even), for a
    mantissa [m >= 0] with the sign given apart. *)
Definition of_decimal (neg : bool) (m : Z) (e10 : Z) : number :=
  match m with
  | Zpos p =>
      if 0 <=? e10 then
        match m * 10 ^ e10 with
        | Zpos n => binary_round prec emax neg n 0
        | _ => S754_zero neg
        end
      else
        let b := 10 ^ (- e10) in
        let s := Z.max 0 (54 + Z.log2 b - Z.log2 m + 1) in
        let (q, r) := Z.div_eucl (m * 2 ^ s) b in
        let l := if r =? 0 then loc_Exact else loc_Inexact (2 * r ?= b) in
        binary_round_aux prec emax neg q (- s) l
  | _ => S754_zero neg
  end.

(** [ExponentPart_opt] followed by the end of the string: the exponent, or
    [None] when what is left is neither empty nor an exponent part. *)
Definition read_exponent (l : list ascii) : option Z :=
  match l with
  | [] => Some 0
  | c :: l' =>
      if (Ascii.eqb c "e" || Ascii.eqb c "E")%char then
        let (neg, l'') :=
          match l' with
          | s :: t =>
              if Ascii.eqb s "-"%char then (true, t)
              else if Ascii.eqb s "+"%char then (false, t)
              else (false, l')
          | [] => (false, l')
          end in
        match read_digits 10 l'' 0 0 with
        | (e, n, []) => if 0 <? n then Some (if neg then - e else e) else None
        | _ => None
        end
      else None
  end.

(** [StrUnsignedDecimalLiteral] other than [Infinity]. *)
Definition read_unsigned_decimal (neg : bool) (l : list ascii) : number :=
  let '(i, ni, l1) := read_digits 10 l 0 0 in
  match l1 with
  | "."%char :: l2 =>
      let '(m, nf, l3) := read_digits 10 l2 i 0 in
      if (ni =? 0) && (nf =? 0) then NaN
      else
        match read_exponent l3 with
        | Some e => of_decimal neg m (e - nf)
        | None => NaN
        end
  | _ =>
      if ni =? 0 then NaN
      else
        match read_exponent l1 with
        | Some e => of_decimal neg i e
        | None => NaN
        end
  end.

Definition read_decimal (l : list ascii) : number :=
  let (neg, l') :=
    match l with
    | c :: t =>
        if Ascii.eqb c "-"%char then (true, t)
        else if Ascii.eqb c "+"%char then (false, t)
        else (false, l)
    | [] => (false, l)
    end in
  if String.eqb (string_of_list_ascii l') "Infinity" then S754_infinity neg
  else read_unsigned_decimal neg l'.

(** [NonDecimalIntegerLiteral]: all of [l] must be digits of the radix. *)
Definition read_radix (radix : Z) (l : list ascii) : number :=
  match read_digits radix l 0 0 with
  | (v, n, []) =>
      if 0 <? n then binary_normalize prec emax v 0 false else NaN
  | _ => NaN
  end.

Definition StringToNumber (s : string) : number :=
  match trim (list_ascii_of_string s) with
  | [] => zero
  | "0"%char :: p :: l =>
      if (Ascii.eqb p "x" || Ascii.eqb p "X")%char then read_radix 16 l
      else if (Ascii.eqb p "o" || Ascii.eqb p "O")%char then read_radix 8 l
      else if (Ascii.eqb p "b" || Ascii.eqb p "B")%char then read_radix 2 l
      else read_decimal ("0"%char :: p :: l)
  | l => read_decimal l
  end.

(** *** [Number(v)] *)

(** The message of the TypeError that [ToPrimitive] throws when neither
    [valueOf] nor [toString] yields a primitive (the text is V8's). *)
Definition TypeError_no_primitive : string :=
  "Cannot convert object to primitive value".

(** The message of the TypeError thrown by [const { id } = v] when [v] is
    [null] (the text is V8's). *)
Definition TypeError_destructure_null : string :=
  "Cannot destructure property 'id' of '(intermediate value)' as it is null.".

Definition has_own_property (k : string) (props : list (string * JsValue))
  : bool :=
  match own_property k props with
  | Some _ => true
  | None => false
  end.

(** Whether [ToString(v)] throws.  A value read from JSON is never callable,
    so an own property [toString] hides [Object.prototype.toString] and
    leaves [ToPrimitive] without a method that returns a primitive; an array
    is joined, which converts each element other than [null]. *)
Fixpoint ToString_throws (v : JsValue) : bool :=
  match v with
  | JsObject props => has_own_property "toString" props
  | JsArray elems => existsb ToString_throws elems
  | _ => false
  end.

Definition one : number := S754_finite false 4503599627370496 (-52).

(** [Number(v)].  An array goes through [Array.prototype.join]: no element
    reads as the empty string, one element as its own string, and two or
    more as a string with a comma, which is not numeric.  A number printed
    and read back is the same number, but for [-0] which prints as [0]. *)
Fixpoint Number (v : JsValue) : Completion number :=
  match v with
  | JsUndefined => Normal NaN
  | JsNull => Normal zero
  | JsBoolean b => Normal (if b then one else zero)
  | JsNumber x => Normal x
  | JsString s => Normal (StringToNumber s)
  | JsObject props =>
      if has_own_property "toString" props then Throw TypeError_no_primitive
      else Normal NaN
  | JsArray elems =>
      if existsb ToString_throws elems then Throw TypeError_no_primitive
      else
        match elems with
        | [] => Normal zero
        | [x] =>
            match x with
            | JsUndefined | JsNull => Normal zero
            | JsBoolean _ => Normal NaN
            | JsNumber (S754_zero _) => Normal zero
            | JsNumber n => Normal n
            | JsString s => Normal (StringToNumber s)
            | JsArray _ => Number x
            | JsObject _ => Normal NaN
            end
        | _ => Normal NaN
        end
  end.

(** The integer a number denotes, when it denotes one.  These are the
    numbers whose decimal text an integer column can be compared with. *)
Definition integer_value (x : number) : option Z :=
  match x with
  | S754_zero _ => Some 0
  | S754_finite s m e =>
      let v :=
        if 0 <=? e then Some (Zpos m * 2 ^ e)
        else if Zpos m mod 2 ^ (- e) =? 0 then Some (Zpos m / 2 ^ (- e))
        else None in
      (if s then Z.opp else id) <$> v
  | S754_infinity _ | S754_nan => None
  end.

(** [const { id } = body] *)
Definition destructure_id (body : JsValue) : Completion JsValue :=
  match body with
  | JsUndefined | JsNull => Throw TypeError_destructure_null
  | JsObject props => Normal (default JsUndefined (own_property "id" props))
  | _ => Normal JsUndefined
  end.

End Js.

(** ** The store: the tables [ChargeRequests] and [Users] *)

Module Store.
Import Js.

(** A row of [ChargeRequests]; its [id] is the key it is stored under.
    [requested_at] is a point in time, counted in some unit from some
    origin. *)
Record ChargeRequest : Type := {
  user_id : option Z;
  amount : option Z;
  approved : bool;
  requested_at : option Z
}.

(** A row of [Users], stored under its [id]. *)
Record User : Type := {
  phone_number : string;
  balance : option Z;
  last_charge_date : string
}.

(** The two tables, each with the sequence that numbers its new rows. *)
Record Database : Type := {
  ChargeRequests : gmap Z ChargeRequest;
  Users : gmap Z User;
  ChargeRequests_seq : Z;
  Users_seq : Z
}.

Definition set_approved (b : bool) (r : ChargeRequest) : ChargeRequest :=
  {| user_id := user_id r; amount := amount r; approved := b;
     requested_at := requested_at r |}.

Definition set_balance (newBalance : Z) (now : string) (u : User) : User :=
  {| phone_number := phone_number u; balance := Some newBalance;
     last_charge_date := now |}.

Definition with_ChargeRequests (t : gmap Z ChargeRequest) (db : Database)
  : Database :=
  {| ChargeRequests := t; Users := Users db;
     ChargeRequests_seq := ChargeRequests_seq db; Users_seq := Users_seq db |}.

Definition with_Users (t : gmap Z User) (db : Database) : Database :=
  {| ChargeRequests := ChargeRequests db; Users := t;
     ChargeRequests_seq := ChargeRequests_seq db; Users_seq := Users_seq db |}.

(** What a handler asks of the store and of its other collaborators, in the
    order in which it asks. *)
Inductive StoreOp : Type :=
| SelectChargeRequests (approved_is : option bool)
| SelectChargeRequest (idNum : number)
| UpdateApproved (idNum : number)
| SelectUser (userId : option Z)
| UpdateUser (userId : option Z) (newBalance : Z) (now : string)
| InvalidateBalanceCache (phone : string)
| FindUserByPhone (phone : string)
| InsertUser (phone : string)
| InsertChargeRequest (userId : Z) (amount : Z)
| NotifyAdmins.

(** A handler: from the database to a result, the database it leaves and the
    operations it issued. *)
Definition Handler (A : Type) : Type :=
  Database -> A * Database * list StoreOp.

Definition ret {A} (a : A) : Handler A := fun db => (a, db, []).

Definition bind {A B} (m : Handler A) (k : A -> Handler B) : Handler B :=
  fun db =>
    let '(a, db1, t1) := m db in
    let '(b, db2, t2) := k a db1 in
    (b, db2, t1 ++ t2).

Definition result {A} (x : A * Database * list StoreOp) : A := x.1.1.
Definition final {A} (x : A * Database * list StoreOp) : Database := x.1.2.
Definition trace {A} (x : A * Database * list StoreOp) : list StoreOp := x.2.

(** [.eq("id", idNum)]: the filter compares the column with the decimal text
    of the number, which names an integer only for an integer below 10^21
    in magnitude. *)
Definition eq_id (idNum : number) : option Z :=
  match integer_value idNum with
  | Some k => if Z.abs k <? 10 ^ 21 then Some k else None
  | None => None
  end.

(** [from("ChargeRequests").select("*").eq("id", idNum).maybeSingle()] *)
Definition select_request (idNum : number) : Handler (option ChargeRequest) :=
  fun db =>
    (eq_id idNum ≫= (fun k => ChargeRequests db !! k), db,
     [SelectChargeRequest idNum]).

(** [from("ChargeRequests").update({ approved: true }).eq("id", idNum)] *)
Definition update_approved (idNum : number) : Handler unit :=
  fun db =>
    (tt,
     match eq_id idNum with
     | Some k =>
         with_ChargeRequests (alter (set_approved true) k (ChargeRequests db)) db
     | None => db
     end,
     [UpdateApproved idNum]).

(** [from("Users").select("phone_number,balance").eq("id", userId)
    .maybeSingle()]; a [null] user id matches no row. *)
Definition select_user (userId : option Z) : Handler (option User) :=
  fun db =>
    (userId ≫= (fun k => Users db !! k), db, [SelectUser userId]).

(** [from("Users").update({ balance: newBalance, last_charge_date: now })
    .eq("id", userId)] *)
Definition update_user (userId : option Z) (newBalance : Z) (now : string)
  : Handler unit :=
  fun db =>
    (tt,
     match userId with
     | Some k => with_Users (alter (set_balance newBalance now) k (Users db)) db
     | None => db
     end,
     [UpdateUser userId newBalance now]).

(** [invalidateBalanceCache(phone)], a cache outside the database. *)
Definition invalidateBalanceCache (phone : string) : Handler unit :=
  fun db => (tt, db, [InvalidateBalanceCache phone]).

(** Modelled from the spec: [findUserByPhone] of [lib/db] is not among the
    sources; the user store is keyed by phone number, so the lookup yields
    the id of the row with that phone number, if there is one. *)
Definition findUserByPhone (phone : string) : Handler (option Z) :=
  fun db =>
    (fst <$> head (filter (fun p => phone_number p.2 = phone)
                          (map_to_list (Users db))),
     db, [FindUserByPhone phone]).

(** [from("Users").insert({ phone_number, balance: 0, last_charge_date: "" })
    .select("id").single()]: the row takes the next value of the sequence;
    the insert fails, leaving the table as it was, when that id is taken. *)
Definition insert_user (phone : string) : Handler (option Z) :=
  fun db =>
    let k := Users_seq db in
    let db' :=
      {| ChargeRequests := ChargeRequests db; Users := Users db;
         ChargeRequests_seq := ChargeRequests_seq db; Users_seq := k + 1 |} in
    match Users db !! k with
    | Some _ => (None, db', [InsertUser phone])
    | None =>
        (Some k,
         with_Users
           (<[k := {| phone_number := phone; balance := Some 0;
                      last_charge_date := "" |}]> (Users db)) db',
         [InsertUser phone])
    end.

(** [from("ChargeRequests").insert({ user_id, amount, approved: false })
    .select("id").single()]; [requested_at] is left to the column's default,
    [default_requested_at]. *)
Definition insert_request (default_requested_at : option Z)
    (userId : Z) (amount : Z) : Handler (option Z) :=
  fun db =>
    let k := ChargeRequests_seq db in
    let db' :=
      {| ChargeRequests := ChargeRequests db; Users := Users db;
         ChargeRequests_seq := k + 1; Users_seq := Users_seq db |} in
    match ChargeRequests db !! k with
    | Some _ => (None, db', [InsertChargeRequest userId amount])
    | None =>
        (Some k,
         with_ChargeRequests
           (<[k := {| user_id := Some userId; amount := Some amount;
                      approved := false;
                      requested_at := default_requested_at |}]>
              (ChargeRequests db)) db',
         [InsertChargeRequest userId amount])
    end.

(** [notifyAdmins({ ... })] *)
Definition notifyAdmins : Handler unit := fun db => (tt, db, [NotifyAdmins]).

(** [order("requested_at", { ascending: false, nullsFirst: false })]: newest
    first, rows without a time last. *)
Definition newer_first (a b : Z * ChargeRequest) : Prop :=
  match requested_at a.2, requested_at b.2 with
  | Some x, Some y => y <= x
  | Some _, None => True
  | None, Some _ => False
  | None, None => True
  end.

#[global] Instance newer_first_dec : RelDecision newer_first.
Proof.
  intros a b. unfold newer_first.
  destruct (requested_at a.2), (requested_at b.2); apply _.
Defined.

Definition approved_matches (approved_is : option bool) (p : Z * ChargeRequest)
  : bool :=
  match approved_is with
  | Some b => Bool.eqb (approved p.2) b
  | None => true
  end.

(** [from("ChargeRequests").select("*, Users(...)").order(...)] with the
    optional filter [.eq("approved", b)]: each selected row comes with the
    user it refers to, if any.  Rows requested at the same time come in an
    order the store chooses; the model takes the one of a stable sort. *)
Definition select_requests (approved_is : option bool)
  : Handler (list (Z * ChargeRequest * option User)) :=
  fun db =>
    ((fun p => (p, user_id p.2 ≫= (fun k => Users db !! k))) <$>
       merge_sort newer_first
         (filter (fun p => approved_matches approved_is p = true)
                 (map_to_list (ChargeRequests db))),
     db, [SelectChargeRequests approved_is]).

End Store.

(** ** The handlers of [app/api/charge-requests/route.ts] *)

Module Route.
Import Js Store.

(** An element of the list [GET] answers with: the row without its joined
    user ([rest], which keeps the id), and three fields read off that user,
    absent when the row has none. *)
Record Item : Type := {
  rest : Z * ChargeRequest;
  phone : option string;
  currentBalance : option Z;
  last_charge_date : option string
}.

(** The JSON bodies the handlers answer with. *)
Inductive Body : Type :=
| Items (items : list Item)           (* { items } *)
| ValidationError                     (* { error: parsed.error.format() } *)
| StoreError                          (* { error: error.message } *)
| Created (id : Z)                    (* { success: true, id } *)
| Approved (balance : Z)              (* { success: true, balance } *)
| Already                             (* { success: true, already: true } *)
| Failure (error : string)            (* { success: false, error } *)
| NoBody.

Record Response : Type := { body : Body; status : Z }.

(** Modelled from the spec: the helper [json] of [lib/utils] is not among the
    sources; called without a status it answers a success, which is 200. *)
Definition default_status : Z := 200.

Definition json (data : Body) (status : Z) : Response :=
  {| body := data; status := status |}.

Notation "'let*' x := m 'in' k" := (bind m (fun x => k))
  (at level 10, x name, m at level 100, k at level 200, only parsing).

Definition to_item (r : Z * ChargeRequest * option User) : Item :=
  let (rest, Users) := r in
  {| rest := rest;
     phone := phone_number <$> Users;
     currentBalance := Users ≫= balance;
     last_charge_date := Store.last_charge_date <$> Users |}.

(** The filter [GET] puts on the query for a value of [status]. *)
Definition status_filter (status : string) : option bool :=
  if String.eqb status "pending" then Some false
  else if String.eqb status "approved" then Some true
  else None.

(** [GET]; [param] is [searchParams.get("status")], [None] for [null]. *)
Definition GET (param : option string) : Handler Response :=
  let status :=
    match param with
    | Some s => if String.eqb s "" then "all" else s
    | None => "all"
    end in
  let* data := select_requests (status_filter status) in
  let items := map to_item data in
  ret (json (Items items) default_status).

(** [POST]; [parsed] is the verdict of [ChargeRequestSchema.safeParse] on the
    body, [None] when it fails, and [pushReady] what [isPushReady()]
    answers. *)
Definition POST (parsed : option (string * Z)) (pushReady : bool)
    (default_requested_at : option Z) : Handler Response :=
  match parsed with
  | None => ret (json ValidationError 400)
  | Some (phone, amount) =>
      let insert userId :=
        let* inserted := insert_request default_requested_at userId amount in
        match inserted with
        | None => ret (json StoreError 500)
        | Some id =>
            let* _ := (if pushReady then notifyAdmins else ret tt) in
            ret (json (Created id) default_status)
        end in
      let* user := findUserByPhone phone in
      match user with
      | Some userId => insert userId
      | None =>
          let* newUser := insert_user phone in
          match newUser with
          | None => ret (json StoreError 500)
          | Some userId => insert userId
          end
      end
  end.

(** [PUT]; [parsed] is what [req.json()] resolves to, [None] when it
    rejects, and [now] what [nowISO()] answers. *)
Definition PUT (now : string) (parsed : option JsValue) : Handler Response :=
  match destructure_id (default (JsObject []) parsed) with
  | Throw message => ret (json (Failure message) 500)
  | Normal id =>
      if is_nullish id then ret (json (Failure "id is required") 400)
      else
        match Number id with
        | Throw message => ret (json (Failure message) 500)
        | Normal idNum =>
            if negb (Number_isFinite idNum)
            then ret (json (Failure "invalid id") 400)
            else
              let* reqData := select_request idNum in
              match reqData with
              | None => ret (json (Failure "not found") 404)
              | Some reqData =>
                  if approved reqData then ret (json Already 200)
                  else
                    let userId := user_id reqData in
                    let amount := default 0 (amount reqData) in
                    let* _ := update_approved idNum in
                    let* user := select_user userId in
                    match user with
                    | None => ret (json (Failure "user not found") 404)
                    | Some user =>
                        let phone := phone_number user in
                        let newBalance := default 0 (balance user) + amount in
                        let* _ := update_user userId newBalance now in
                        let* _ := invalidateBalanceCache phone in
                        ret (json (Approved newBalance) 200)
                    end
              end
        end
  end.

Definition OPTIONS : Handler Response := ret (json NoBody 204).

(** [approve(requestId)]: a [PUT] whose body is [{ id: requestId }]. *)
Definition approve (now : string) (requestId : JsValue) : Handler Response :=
  PUT now (Some (JsObject [("id", requestId)])).

(** A request to the route, with what its handler reads from outside. *)
Inductive Call : Type :=
| CallGET (param : option string)
| CallPOST (parsed : option (string * Z)) (pushReady : bool)
    (default_requested_at : option Z)
| CallPUT (now : string) (parsed : option JsValue)
| CallOPTIONS.

Definition handle (c : Call) : Handler Response :=
  match c with
  | CallGET param => GET param
  | CallPOST parsed pushReady t => POST parsed pushReady t
  | CallPUT now parsed => PUT now parsed
  | CallOPTIONS => OPTIONS
  end.

(** The database after a sequence of requests, served one after another. *)
Fixpoint serve (calls : list Call) (db : Database) : Database :=
  match calls with
  | [] => db
  | c :: calls' => serve calls' (final (handle c db))
  end.


(** [requestId] passes the checks of [PUT] and names the row stored under
    [k]. *)
Definition identifies (requestId : JsValue) (k : Z) : Prop :=
  is_nullish requestId = false /\
  exists idNum, Number requestId = Normal idNum /\ eq_id idNum = Some k.

(** [approve] past the checks on the id: what is left is the lookup and what
    follows it. *)
Definition approve_checked (now : string) (idNum : number)
  : Handler Response :=
  let* reqData := select_request idNum in
  match reqData with
  | None => ret (json (Failure "not found") 404)
  | Some reqData =>
      if approved reqData then ret (json Already 200)
      else
        let* _ := update_approved idNum in
        let* user := select_user (user_id reqData) in
        match user with
        | None => ret (json (Failure "user not found") 404)
        | Some user =>
            let newBalance :=
              default 0 (balance user) + default 0 (amount reqData) in
            let* _ := update_user (user_id reqData) newBalance now in
            let* _ := invalidateBalanceCache (phone_number user) in
            ret (json (Approved newBalance) 200)
        end
  end.


(** An id that is numeric, read on the value the body carries: a number, or
    a string that reads as a finite number.  Every other value, a boolean
    among them, is a non-numeric id. *)
Definition numeric_id (id : JsValue) : bool :=
  match id with
  | JsNumber _ => true
  | JsString s => Number_isFinite (StringToNumber s)
  | _ => false
  end.

(** A database for the examples: request 1 asks 5000 for user 7, whose
    balance is 0 (scenario A of the specification). *)
Definition scenario_A : Database :=
  {| ChargeRequests :=
       {[ 1 := {| user_id := Some 7; amount := Some 5000; approved := false;
                  requested_at := Some 10 |} ]};
     Users :=
       {[ 7 := {| phone_number := "09123"; balance := Some 0;
                  Store.last_charge_date := "" |} ]};
     ChargeRequests_seq := 2;
     Users_seq := 8 |}.

(** The same request once its user is gone. *)
Definition orphaned : Database := with_Users ∅ scenario_A.

(** The rows [GET] lists, in the order of the list. *)
Definition GET_rows (param : option string) (db : Database)
  : list (Z * ChargeRequest) :=
  match body (result (GET param db)) with
  | Items items => rest <$> items
  | _ => []
  end.

Definition is_PUT (c : Call) : bool :=
  match c with
  | CallPUT _ _ => true
  | _ => false
  end.

(** A second database for the examples: request 1 of 2020 is approved,
    request 2 of 2021 and request 3, which has no time, are pending. *)
Definition three_requests : Database :=
  {| ChargeRequests :=
       {[ 1 := {| user_id := Some 7; amount := Some 100; approved := true;
                  requested_at := Some 2020 |};
          2 := {| user_id := Some 7; amount := Some 200; approved := false;
                  requested_at := Some 2021 |};
          3 := {| user_id := Some 8; amount := Some 300; approved := false;
                  requested_at := None |} ]};
     Users :=
       {[ 7 := {| phone_number := "09123"; balance := Some 100;
                  Store.last_charge_date := "2020" |} ]};
     ChargeRequests_seq := 4;
     Users_seq := 8 |}.

End Route.

(** ** The purchase page, [app/page.tsx] *)

Module Page.

(** [type Product = { id: number; name: string; price: number }] *)
Module Product.
Record t : Type := { id : Z; name : string; price : Z }.
End Product.

(** [type SelectedProduct =
      { id: string; product: Product; quantity: number }] *)
Module SelectedProduct.
Record t : Type := { id : string; product : Product.t; quantity : Z }.
End SelectedProduct.

(** An element of [getSelectedProductsList()], which is also a line of the
    receipt. *)
Module ListItem.
Record t : Type := { id : Z; name : string; price : Z; quantity : Z }.
End ListItem.

(** An element of [items] in the body sent to [/api/purchase]. *)
Module ApiItem.
Record t : Type := { product_id : string; qty : Z; price : Z; total : Z }.
End ApiItem.

(** The object [setPurchaseData] stores: the receipt. *)
Record PurchaseData : Type := {
  products : list ListItem.t;
  totalPrice : Z;
  timestamp : string;
  remainingBalance : Z
}.

(** The React state of [PurchasePage]. *)
Record State : Type := {
  selectedProducts : list SelectedProduct.t;
  showProductModal : bool;
  editingProductId : option string;
  searchQuery : string;
  selectedProductInModal : option Product.t;
  quantityInModal : Z;
  balance : Z;
  showReceipt : bool;
  purchaseData : option PurchaseData;
  phone : option string;
  confirmOpen : bool
}.

(** The state of the first render. *)
Definition initial : State :=
  {| selectedProducts := []; showProductModal := false;
     editingProductId := None; searchQuery := "";
     selectedProductInModal := None; quantityInModal := 1; balance := 0;
     showReceipt := false; purchaseData := None; phone := None;
     confirmOpen := false |}.

(** What a handler does besides setting state. *)
Inductive Effect : Type :=
| Alert (message : string)
| FetchPurchase (phone : option string) (items : list ApiItem.t)
| MutateBalance (balanceKey : string) (newBal : Z)
| Revalidate (balanceKey : string)
| PostBalanceChanged (phone : option string) (newBalance : Z)
| ConsoleError.

(** How the call to [/api/purchase] ends for [handlePurchase]: a rejected
    promise (of [apiFetch] or of [response.json()]), or a response with its
    [ok] flag and the two fields read from its JSON: [balance_after], and
    the text [JSON.stringify] gives for [error] when there is one. *)
Inductive ApiOutcome : Type :=
| Rejected
| Responded (ok : bool) (balance_after : option Z) (error : option string).

(** The text of the alert for a failed purchase, which is Japanese in the
    source; the literal is kept as the bytes of its UTF-8 form. *)
Definition purchase_failed : string := "購入に失敗しました".

(** A string in a condition: the empty string counts as false. *)
Definition truthy (s : option string) : bool :=
  match s with
  | Some s => negb (String.eqb s "")
  | None => false
  end.

(** [n || 1] *)
Definition or_one (n : Z) : Z := if n =? 0 then 1 else n.

Definition is_digit (c : ascii) : bool :=
  let n := nat_of_ascii c in ((48 <=? n) && (n <=? 57))%nat.

(** [phone.replace(/\D/g, "")] *)
Fixpoint digits_only (s : string) : string :=
  match s with
  | EmptyString => EmptyString
  | String c s' =>
      if is_digit c then String c (digits_only s') else digits_only s'
  end.

Definition normalizedPhone (st : State) : option string :=
  if truthy (phone st) then digits_only <$> phone st else None.

(** The SWR key of the balance; [encodeURIComponent] leaves digits as they
    are. *)
Definition balanceKey (st : State) : option string :=
  if truthy (normalizedPhone st)
  then (fun p => "/api/balance?phone=" +:+ p) <$> normalizedPhone st
  else None.

Definition set_selectedProducts (l : list SelectedProduct.t) (st : State)
  : State :=
  {| selectedProducts := l; showProductModal := showProductModal st;
     editingProductId := editingProductId st; searchQuery := searchQuery st;
     selectedProductInModal := selectedProductInModal st;
     quantityInModal := quantityInModal st; balance := balance st;
     showReceipt := showReceipt st; purchaseData := purchaseData st;
     phone := phone st; confirmOpen := confirmOpen st |}.

(** The four values the modal works with, set together. *)
Definition set_modal (show : bool) (editing : option string)
    (selected : option Product.t) (quantity : Z) (st : State) : State :=
  {| selectedProducts := selectedProducts st; showProductModal := show;
     editingProductId := editing; searchQuery := "";
     selectedProductInModal := selected; quantityInModal := quantity;
     balance := balance st; showReceipt := showReceipt st;
     purchaseData := purchaseData st; phone := phone st;
     confirmOpen := confirmOpen st |}.

Definition openProductModal (editId : option string) (st : State) : State :=
  if truthy editId then
    match
      find (fun p => String.eqb (SelectedProduct.id p) (default "" editId))
           (selectedProducts st)
    with
    | Some existing =>
        set_modal true editId (Some (SelectedProduct.product existing))
          (SelectedProduct.quantity existing) st
    | None =>
        set_modal true (editingProductId st) (selectedProductInModal st)
          (quantityInModal st) st
    end
  else set_modal true None None 1 st.

Definition closeProductModal (st : State) : State :=
  set_modal false None None 1 st.

Definition handleProductSelect (product : Product.t) (st : State) : State :=
  {| selectedProducts := selectedProducts st;
     showProductModal := showProductModal st;
     editingProductId := editingProductId st; searchQuery := searchQuery st;
     selectedProductInModal := Some product;
     quantityInModal := quantityInModal st; balance := balance st;
     showReceipt := showReceipt st; purchaseData := purchaseData st;
     phone := phone st; confirmOpen := confirmOpen st |}.

(** The "Change" button: [setSelectedProductInModal(null)]. *)
Definition clearProductInModal (st : State) : State :=
  {| selectedProducts := selectedProducts st;
     showProductModal := showProductModal st;
     editingProductId := editingProductId st; searchQuery := searchQuery st;
     selectedProductInModal := None;
     quantityInModal := quantityInModal st; balance := balance st;
     showReceipt := showReceipt st; purchaseData := purchaseData st;
     phone := phone st; confirmOpen := confirmOpen st |}.

Definition setQuantityInModal (q : Z) (st : State) : State :=
  {| selectedProducts := selectedProducts st;
     showProductModal := showProductModal st;
     editingProductId := editingProductId st; searchQuery := searchQuery st;
     selectedProductInModal := selectedProductInModal st;
     quantityInModal := q; balance := balance st;
     showReceipt := showReceipt st; purchaseData := purchaseData st;
     phone := phone st; confirmOpen := confirmOpen st |}.

Definition setSearchQuery (q : string) (st : State) : State :=
  {| selectedProducts := selectedProducts st;
     showProductModal := showProductModal st;
     editingProductId := editingProductId st; searchQuery := q;
     selectedProductInModal := selectedProductInModal st;
     quantityInModal := quantityInModal st; balance := balance st;
     showReceipt := showReceipt st; purchaseData := purchaseData st;
     phone := phone st; confirmOpen := confirmOpen st |}.

Definition setBalance (b : Z) (st : State) : State :=
  {| selectedProducts := selectedProducts st;
     showProductModal := showProductModal st;
     editingProductId := editingProductId st; searchQuery := searchQuery st;
     selectedProductInModal := selectedProductInModal st;
     quantityInModal := quantityInModal st; balance := b;
     showReceipt := showReceipt st; purchaseData := purchaseData st;
     phone := phone st; confirmOpen := confirmOpen st |}.

Definition setPhone (ph : option string) (st : State) : State :=
  {| selectedProducts := selectedProducts st;
     showProductModal := showProductModal st;
     editingProductId := editingProductId st; searchQuery := searchQuery st;
     selectedProductInModal := selectedProductInModal st;
     quantityInModal := quantityInModal st; balance := balance st;
     showReceipt := showReceipt st; purchaseData := purchaseData st;
     phone := ph; confirmOpen := confirmOpen st |}.

Definition setConfirmOpen (b : bool) (st : State) : State :=
  {| selectedProducts := selectedProducts st;
     showProductModal := showProductModal st;
     editingProductId := editingProductId st; searchQuery := searchQuery st;
     selectedProductInModal := selectedProductInModal st;
     quantityInModal := quantityInModal st; balance := balance st;
     showReceipt := showReceipt st; purchaseData := purchaseData st;
     phone := phone st; confirmOpen := b |}.

(** [setShowReceipt] and [setPurchaseData], always set together. *)
Definition setReceipt (show : bool) (data : option PurchaseData) (st : State)
  : State :=
  {| selectedProducts := selectedProducts st;
     showProductModal := showProductModal st;
     editingProductId := editingProductId st; searchQuery := searchQuery st;
     selectedProductInModal := selectedProductInModal st;
     quantityInModal := quantityInModal st; balance := balance st;
     showReceipt := show; purchaseData := data;
     phone := phone st; confirmOpen := confirmOpen st |}.

(** [handleModalOk]; [now] is [Date.now().toString()]. *)
Definition handleModalOk (now : string) (st : State) : State :=
  match selectedProductInModal st with
  | None => st
  | Some selected =>
      let newRow :=
        {| SelectedProduct.id :=
             if truthy (editingProductId st)
             then default "" (editingProductId st) else now;
           SelectedProduct.product := selected;
           SelectedProduct.quantity := quantityInModal st |} in
      let st' :=
        if truthy (editingProductId st) then
          set_selectedProducts
            (map (fun p =>
                    if String.eqb (SelectedProduct.id p)
                         (default "" (editingProductId st))
                    then newRow else p)
                 (selectedProducts st)) st
        else set_selectedProducts (selectedProducts st ++ [newRow]) st in
      closeProductModal st'
  end.

Definition removeProduct (id : string) (st : State) : State :=
  set_selectedProducts
    (filter (fun p => SelectedProduct.id p <> id) (selectedProducts st)) st.

Definition getTotalPrice (st : State) : Z :=
  fold_left
    (fun total item =>
       total
       + Product.price (SelectedProduct.product item)
         * or_one (SelectedProduct.quantity item))
    (selectedProducts st) 0.

Definition getSelectedProductsList (st : State) : list ListItem.t :=
  map (fun row =>
         {| ListItem.id := Product.id (SelectedProduct.product row);
            ListItem.name := Product.name (SelectedProduct.product row);
            ListItem.price := Product.price (SelectedProduct.product row);
            ListItem.quantity := SelectedProduct.quantity row |})
      (selectedProducts st).

Definition handleReceiptClose (st : State) : State :=
  set_selectedProducts [] (setReceipt false None st).

(** The element of the request body made from a selected item; [String] of
    an integer is its decimal text. *)
Definition to_api_item (it : ListItem.t) : ApiItem.t :=
  {| ApiItem.product_id := pretty (ListItem.id it);
     ApiItem.qty := ListItem.quantity it;
     ApiItem.price := ListItem.price it;
     ApiItem.total := ListItem.price it * ListItem.quantity it |}.

(** [handlePurchase]; [time] is [formatYGNMinute(new Date())] and [outcome]
    how the call to the API ends. *)
Definition handlePurchase (time : string) (outcome : ApiOutcome) (st : State)
  : State * list Effect :=
  let selectedList := getSelectedProductsList st in
  let totalPrice := getTotalPrice st in
  if (length selectedList =? 0)%nat then (st, [Alert "Please select items"])
  else if balance st <? totalPrice then (st, [Alert "Shortage of Balance"])
  else
    let request := FetchPurchase (phone st) (map to_api_item selectedList) in
    match outcome with
    | Rejected => (st, [request; ConsoleError; Alert purchase_failed])
    | Responded true balance_after _ =>
        let newBal := default (balance st - totalPrice) balance_after in
        (setReceipt true
           (Some {| products := selectedList; totalPrice := totalPrice;
                    timestamp := time; remainingBalance := newBal |})
           (setBalance newBal st),
         [request]
         ++ match balanceKey st with
            | Some key => [MutateBalance key newBal; Revalidate key]
            | None => []
            end
         ++ [PostBalanceChanged (phone st) newBal])
    | Responded false _ error =>
        (st, [request; Alert (default purchase_failed error)])
    end.

(** What can happen to the page: the clicks and inputs its JSX wires to the
    handlers, and the two effects that bring the phone and the balance in. *)
Inductive Event : Type :=
| OpenProductModal (editId : option string)
| CloseProductModal
| ProductSelect (product : Product.t)
| ChangeProduct
| DecreaseQuantity
| IncreaseQuantity
| SearchInput (q : string)
| ModalOk (now : string)
| RemoveProduct (id : string)
| ReceiptClose
| ConfirmOpenChange (b : bool)
| ConfirmPurchase (time : string) (outcome : ApiOutcome)
| PhoneSaved (ph : option string)
| BalanceSnapshot (apiBal : Z).

Definition step (e : Event) (st : State) : State * list Effect :=
  match e with
  | OpenProductModal editId => (openProductModal editId st, [])
  | CloseProductModal => (closeProductModal st, [])
  | ProductSelect product => (handleProductSelect product st, [])
  | ChangeProduct => (clearProductInModal st, [])
  | DecreaseQuantity =>
      (setQuantityInModal (Z.max 1 (quantityInModal st - 1)) st, [])
  | IncreaseQuantity => (setQuantityInModal (quantityInModal st + 1) st, [])
  | SearchInput q => (setSearchQuery q st, [])
  | ModalOk now => (handleModalOk now st, [])
  | RemoveProduct id => (removeProduct id st, [])
  | ReceiptClose => (handleReceiptClose st, [])
  | ConfirmOpenChange b => (setConfirmOpen b st, [])
  | ConfirmPurchase time outcome =>
      handlePurchase time outcome (setConfirmOpen false st)
  | PhoneSaved ph => (setPhone ph st, [])
  | BalanceSnapshot apiBal => (setBalance apiBal st, [])
  end.

(** The state after a sequence of events, from a given state. *)
Fixpoint run (events : list Event) (st : State) : State :=
  match events with
  | [] => st
  | e :: events' => run events' (step e st).1
  end.



(** Every quantity on the page is at least 1. *)
Definition quantities_positive (st : State) : Prop :=
  1 <= quantityInModal st /\
  Forall (fun p => 1 <= SelectedProduct.quantity p) (selectedProducts st).

(** Two items at 2000 in the cart and a balance of 5000 (scenario B of the
    specification), as the page reaches it. *)
Definition tea : Product.t :=
  {| Product.id := 3; Product.name := "Tea"; Product.price := 2000 |}.

Definition scenario_B_events : list Event :=
  [PhoneSaved (Some "09-123"); BalanceSnapshot 5000; OpenProductModal None;
   SearchInput "te"; ProductSelect tea; IncreaseQuantity;
   ModalOk "1700000000000"].

Definition scenario_B : State := run scenario_B_events initial.


(** [c.toLowerCase()] for one code unit up to 255: the capital letters A-Z
    and the capital letters of Latin-1 (192-222 but the sign 215) move 32
    up. *)
Definition lower (c : ascii) : ascii :=
  let n := nat_of_ascii c in
  if ((65 <=? n) && (n <=? 90)
      || (192 <=? n) && (n <=? 222) && negb (n =? 215))%nat
  then ascii_of_nat (n + 32) else c.

(** [s.toLowerCase()] *)
Fixpoint toLowerCase (s : string) : string :=
  match s with
  | EmptyString => EmptyString
  | String c s' => String (lower c) (toLowerCase s')
  end.

(** [s.includes(sub)] *)
Fixpoint includes (s sub : string) : bool :=
  if String.prefix sub s then true
  else
    match s with
    | EmptyString => false
    | String _ s' => includes s' sub
    end.

(** [!searchQuery.trim()]: nothing is left once white space is trimmed. *)
Definition blank (q : string) : bool :=
  match Js.trim (list_ascii_of_string q) with
  | [] => true
  | _ => false
  end.

(** [filteredProducts], for the catalogue [products] and a search query. *)
Definition filteredProducts (products : list Product.t) (searchQuery : string)
  : list Product.t :=
  if blank searchQuery then products
  else
    List.filter
      (fun product =>
         includes (toLowerCase (Product.name product))
                  (toLowerCase searchQuery))
      products.

(** A message on the broadcast channel, as the balance listener reads it:
    its [type], and its [phone] for [BALANCE_CHANGED]. *)
Inductive Message : Type :=
| BALANCE_CHANGED_ALL
| BALANCE_CHANGED (phone : option string)
| OtherMessage.

(** The listener that refreshes the balance on a message of another tab. *)
Definition onBalanceMessage (msg : Message) (st : State) : list Effect :=
  match balanceKey st with
  | None => []
  | Some key =>
      match msg with
      | BALANCE_CHANGED_ALL => [Revalidate key]
      | BALANCE_CHANGED ph =>
          let m := digits_only (if truthy ph then default "" ph else "") in
          if negb (truthy (normalizedPhone st))
             || String.eqb m (default "" (normalizedPhone st))
          then [Revalidate key] else []
      | OtherMessage => []
      end
  end.

(** The message [handlePurchase] posts with [PostBalanceChanged]. *)
Definition posted (e : Effect) : Message :=
  match e with
  | PostBalanceChanged ph _ => BALANCE_CHANGED ph
  | _ => OtherMessage
  end.

(** A small catalogue for the examples. *)
Definition catalogue : list Product.t :=
  [tea;
   {| Product.id := 4; Product.name := "Green TEA"; Product.price := 2500 |};
   {| Product.id := 5; Product.name := "Coffee"; Product.price := 3000 |}].

End Page.

(** ** The built-ins on some inputs *)

Module JsFacts.
Import Js.

Example Number_of_true : Number (JsBoolean true) = Normal one.
Proof. reflexivity. Qed.

Example Number_of_empty_string : Number (JsString "") = Normal zero.
Proof. reflexivity. Qed.

Example Number_of_empty_array : Number (JsArray []) = Normal zero.
Proof. reflexivity. Qed.

Example Number_of_letters : Number (JsString "abc") = Normal NaN.
Proof. reflexivity. Qed.

Example Number_of_plain_object : Number (JsObject [("a", JsNull)]) = Normal NaN.
Proof. reflexivity. Qed.

Example Number_of_object_with_toString :
  Number (JsObject [("toString", JsNull)]) = Throw TypeError_no_primitive.
Proof. reflexivity. Qed.

Example Number_of_padded_digits :
  (fun x => match x with Normal n => integer_value n | Throw _ => None end)
    (Number (JsString "  12 ")) = Some 12.
Proof. vm_compute. reflexivity. Qed.

Example Number_of_hexadecimal :
  integer_value (StringToNumber "0x1F") = Some 31.
Proof. vm_compute. reflexivity. Qed.

Example Number_of_fraction : integer_value (StringToNumber "1.5") = None.
Proof. vm_compute. reflexivity. Qed.

Example Number_of_tenth :
  StringToNumber "0.1" = S754_finite false 7205759403792794 (-56).
Proof. vm_compute. reflexivity. Qed.

Example Number_overflows : StringToNumber "1e999" = Infinity.
Proof. vm_compute. reflexivity. Qed.

Example Number_rounds_to_even :
  integer_value (StringToNumber "9007199254740993") = Some 9007199254740992.
Proof. vm_compute. reflexivity. Qed.

Example Number_of_signed_hexadecimal : StringToNumber "-0x10" = NaN.
Proof. vm_compute. reflexivity. Qed.

End JsFacts.

(** ** The approval workflow *)

Module Approval.
Import Js Store Route.

Lemma eq_id_finite idNum k :
  eq_id idNum = Some k -> Number_isFinite idNum = true.
Proof.
  unfold eq_id, integer_value.
  destruct idNum; simpl; try reflexivity; discriminate.
Qed.

Lemma approve_valid now requestId idNum :
  is_nullish requestId = false ->
  Number requestId = Normal idNum ->
  Number_isFinite idNum = true ->
  approve now requestId = approve_checked now idNum.
Proof.
  intros Hnull Hnum Hfin. unfold approve, PUT. cbn -[Number].
  rewrite Hnull, Hnum, Hfin. reflexivity.
Qed.

Lemma approve_identified now requestId k :
  identifies requestId k ->
  exists idNum, eq_id idNum = Some k /\
    approve now requestId = approve_checked now idNum.
Proof.
  intros [Hnull (idNum & Hnum & Hk)]. exists idNum. split; [exact Hk|].
  apply approve_valid; eauto using eq_id_finite.
Qed.

Ltac run_handler :=
  unfold approve_checked, bind, ret, select_request, update_approved,
    select_user, update_user, invalidateBalanceCache, result, final, trace;
  cbn [mbind option_bind fst snd].





(** The branch of [PUT] in which the user of a pending request has no
    row. *)
Lemma approve_user_missing now requestId k r db :
  identifies requestId k ->
  ChargeRequests db !! k = Some r ->
  approved r = false ->
  (user_id r ≫= (fun uid => Users db !! uid)) = None ->
  let out := approve now requestId db in
  result out = json (Failure "user not found") 404 /\
  ChargeRequests (final out) !! k = Some (set_approved true r) /\
  Users (final out) = Users db.
Proof.
  intros Hid Hr Hpending Huser.
  destruct (approve_identified now _ _ Hid) as (idNum & Hk & ->).
  run_handler. rewrite Hk. cbn [mbind option_bind] in *. rewrite Hr, Hpending.
  cbn. rewrite Huser. cbn. repeat split.
  rewrite lookup_alter_eq, Hr. reflexivity.
Qed.

(** C3, at the input where the code departs from it: request 1 is pending
    and its user has no row.  [approve] marks the request approved, answers
    404 and credits nobody; a later [approve] finds the request approved and
    answers "already applied", so the credit is never made. *)
Theorem approve_orphaned_marks_without_credit :
  let out := approve "t1" (JsNumber one) orphaned in
  result out = json (Failure "user not found") 404 /\
  (approved <$> ChargeRequests (final out) !! 1) = Some true /\
  Users (final out) = Users orphaned /\
  trace out
  = [SelectChargeRequest one; UpdateApproved one; SelectUser (Some 7)] /\
  approve "t2" (JsNumber one) (final out)
  = (json Already 200, final out, [SelectChargeRequest one]).
Proof. vm_compute. repeat split; reflexivity. Qed.




(** C7 as stated fails: a body whose id is the boolean [true] carries a
    non-numeric id, yet [Number(true)] is 1, so the request with id 1 is
    looked up and, here, approved and credited. *)
Lemma PUT_boolean_id_reaches_the_store :
  numeric_id (JsBoolean true) = false /\
  let out := PUT "t" (Some (JsObject [("id", JsBoolean true)])) scenario_A in
  result out = json (Approved 5000) 200 /\
  head (trace out) = Some (SelectChargeRequest one) /\
  final out <> scenario_A.
Proof.
  split; [reflexivity|]. cbv zeta. split; [vm_compute; reflexivity|].
  split; [vm_compute; reflexivity|].
  intros H. apply (f_equal (fun db => approved <$> ChargeRequests db !! 1)) in H.
  vm_compute in H. discriminate.
Qed.

(** C7, amended.  A body that carries an id (not [null], not [undefined])
    whose numeric reading [Number(id)] is [NaN] or an infinity: [PUT]
    answers 400 "invalid id", asks nothing of the store and leaves the
    database as it was. *)
Theorem PUT_rejects_non_finite_id now parsed id idNum db :
  destructure_id (default (JsObject []) parsed) = Normal id ->
  is_nullish id = false ->
  Number id = Normal idNum ->
  Number_isFinite idNum = false ->
  PUT now parsed db = (json (Failure "invalid id") 400, db, []).
Proof.
  intros Hid Hnull Hnum Hfin. unfold PUT.
  rewrite Hid, Hnull, Hnum, Hfin. reflexivity.
Qed.

Lemma PUT_rejects_non_finite_id_witness :
  PUT "t" (Some (JsObject [("id", JsString "abc")])) scenario_A
  = (json (Failure "invalid id") 400, scenario_A, []).
Proof.
  apply (PUT_rejects_non_finite_id "t" _ (JsString "abc") NaN scenario_A);
    reflexivity.
Defined.

(** The shapes the trace of [PUT] can take. *)
Lemma PUT_trace now parsed db :
  trace (PUT now parsed db) = [] \/
  (exists idNum, trace (PUT now parsed db) = [SelectChargeRequest idNum]) \/
  (exists idNum userId,
     trace (PUT now parsed db) =
     [SelectChargeRequest idNum; UpdateApproved idNum; SelectUser userId]) \/
  (exists idNum userId newBalance phone,
     trace (PUT now parsed db) =
     [SelectChargeRequest idNum; UpdateApproved idNum; SelectUser userId;
      UpdateUser userId newBalance now; InvalidateBalanceCache phone]).
Proof.
  unfold PUT.
  destruct (destructure_id _) as [id|]; [|left; reflexivity].
  destruct (is_nullish id); [left; reflexivity|].
  destruct (Number id) as [idNum|]; [|left; reflexivity].
  destruct (Number_isFinite idNum); [|left; reflexivity].
  cbn [negb]. run_handler.
  destruct (eq_id idNum ≫= _) as [r|] eqn:Hr; cbn [mbind option_bind];
    [|right; left; eauto].
  destruct (approved r); [right; left; eauto|]. cbn.
  destruct (user_id r ≫= _) as [u|]; cbn.
  - right; right; right. eauto 10.
  - right; right; left. eauto.
Qed.

(** C8. Whenever [PUT] writes a credit, it has before that looked the
    request up (the check of its approved flag) and then written the
    approved flag: both come earlier in the order of its store operations. *)
Theorem credit_follows_approval_flag now parsed db i userId newBalance t :
  trace (PUT now parsed db) !! i = Some (UpdateUser userId newBalance t) ->
  exists idNum j1 j2, (j1 < j2 < i)%nat /\
    trace (PUT now parsed db) !! j1 = Some (SelectChargeRequest idNum) /\
    trace (PUT now parsed db) !! j2 = Some (UpdateApproved idNum).
Proof.
  destruct (PUT_trace now parsed db)
    as [-> | [(idNum & ->) | [(idNum & u & ->) | (idNum & u & b & p & ->)]]];
    intros H.
  - discriminate.
  - destruct i as [|[|]]; discriminate.
  - destruct i as [|[|[|[|]]]]; discriminate.
  - destruct i as [|[|[|[|[|[|]]]]]]; try discriminate.
    exists idNum, 0%nat, 1%nat. repeat split; lia.
Qed.

Lemma credit_follows_approval_flag_witness :
  exists idNum j1 j2, (j1 < j2 < 3)%nat /\
    trace (approve "t" (JsString "1") scenario_A) !! j1
    = Some (SelectChargeRequest idNum) /\
    trace (approve "t" (JsString "1") scenario_A) !! j2
    = Some (UpdateApproved idNum).
Proof.
  apply (credit_follows_approval_flag "t"
           (Some (JsObject [("id", JsString "1")])) scenario_A 3
           (Some 7) 5000 "t").
  vm_compute. reflexivity.
Defined.

Lemma PUT_keeps_approved now parsed db k r :
  ChargeRequests db !! k = Some r ->
  approved r = true ->
  ChargeRequests (final (PUT now parsed db)) !! k = Some r.
Proof.
  intros Hr Happroved. unfold PUT.
  destruct (destructure_id _) as [id|]; [|exact Hr].
  destruct (is_nullish id); [exact Hr|].
  destruct (Number id) as [idNum|]; [|exact Hr].
  destruct (Number_isFinite idNum); [|exact Hr].
  cbn [negb]. run_handler.
  destruct (eq_id idNum) as [k0|] eqn:Hk0; cbn [mbind option_bind];
    [|exact Hr].
  destruct (ChargeRequests db !! k0) as [r0|] eqn:Hr0; [|exact Hr].
  destruct (approved r0) eqn:Hpending; [exact Hr|].
  assert (k0 <> k) as Hne by (intros ->; congruence).
  cbn. destruct (user_id r0 ≫= _) as [u|]; cbn.
  - destruct (user_id r0); cbn; rewrite lookup_alter_ne by exact Hne; exact Hr.
  - rewrite lookup_alter_ne by exact Hne. exact Hr.
Qed.

Lemma insert_request_keeps t userId amount db k r :
  ChargeRequests db !! k = Some r ->
  ChargeRequests (final (insert_request t userId amount db)) !! k = Some r.
Proof.
  intros Hr. unfold insert_request, final.
  destruct (ChargeRequests db !! ChargeRequests_seq db) eqn:Hfree; cbn;
    [exact Hr|].
  rewrite lookup_insert_ne; [exact Hr|]. intros Heq. congruence.
Qed.

Lemma POST_keeps parsed pushReady t db k r :
  ChargeRequests db !! k = Some r ->
  ChargeRequests (final (POST parsed pushReady t db)) !! k = Some r.
Proof.
  intros Hr. unfold POST. destruct parsed as [[phone amount]|]; [|exact Hr].
  assert (forall userId db', ChargeRequests db' !! k = Some r ->
            ChargeRequests
              (final
                 (bind (insert_request t userId amount)
                    (fun inserted =>
                       match inserted with
                       | Some id =>
                           bind (if pushReady then notifyAdmins else ret tt)
                             (fun _ => ret (json (Created id) default_status))
                       | None => ret (json StoreError 500)
                       end) db')) !! k = Some r) as Hinsert.
  { intros userId db' Hr'.
    pose proof (insert_request_keeps t userId amount db' k r Hr') as H.
    unfold bind, final in *.
    destruct (insert_request t userId amount db') as [[[id|] db1] t1];
      cbn in *; [|exact H].
    destruct pushReady; cbn; exact H. }
  unfold bind at 1. unfold findUserByPhone at 1.
  destruct (fst <$> head _) as [userId|].
  - specialize (Hinsert userId db Hr). unfold final in *.
    destruct (bind _ _ db) as [[b db2] t2]. exact Hinsert.
  - unfold bind at 1. unfold insert_user at 1.
    destruct (Users db !! Users_seq db); cbn; [exact Hr|].
    match goal with
    | |- context [bind _ _ ?d] => specialize (Hinsert (Users_seq db) d Hr)
    end.
    unfold final in *.
    destruct (bind _ _ _) as [[b db2] t2]. exact Hinsert.
Qed.

Lemma handle_keeps_approved c db k r :
  ChargeRequests db !! k = Some r ->
  approved r = true ->
  ChargeRequests (final (handle c db)) !! k = Some r.
Proof.
  intros Hr Happroved. destruct c; cbn [handle].
  - exact Hr.
  - apply POST_keeps, Hr.
  - apply PUT_keeps_approved; assumption.
  - exact Hr.
Qed.

(** C9. Once a charge request is approved, no request served by the route
    ([GET], [POST], [PUT], [OPTIONS], in any number and order) changes its
    row: its amount and its approved flag stay what they were. *)
Theorem approved_request_is_immutable calls db k r :
  ChargeRequests db !! k = Some r ->
  approved r = true ->
  exists r', ChargeRequests (serve calls db) !! k = Some r' /\
    amount r' = amount r /\ approved r' = true /\ r' = r.
Proof.
  intros Hr Happroved. exists r.
  enough (ChargeRequests (serve calls db) !! k = Some r) by auto.
  revert db Hr. induction calls as [|c calls IH]; intros db Hr; [exact Hr|].
  cbn [serve]. apply IH. apply handle_keeps_approved; assumption.
Qed.

Lemma approved_request_is_immutable_witness :
  let db := final (approve "t1" (JsString "1") scenario_A) in
  exists r',
    ChargeRequests
      (serve [CallPUT "t2" (Some (JsObject [("id", JsNumber one)]));
              CallPOST (Some ("09123", 700)) true (Some 11);
              CallGET (Some "approved");
              CallPUT "t3" (Some (JsObject [("id", JsString "2")]))] db) !! 1
    = Some r' /\
    amount r' = Some 5000 /\ approved r' = true /\
    r' = {| user_id := Some 7; amount := Some 5000; approved := true;
            requested_at := Some 10 |}.
Proof.
  cbv zeta.
  apply (approved_request_is_immutable _ _ 1
           {| user_id := Some 7; amount := Some 5000; approved := true;
              requested_at := Some 10 |}).
  - vm_compute. reflexivity.
  - reflexivity.
Defined.

End Approval.

(** ** Listing charge requests *)

Module Listing.
Import Js Store Route.

(** The filter [GET] queries with, for each value of the parameter. *)
Lemma GET_query param db :
  exists approved_is,
    GET param db
    = (json (Items (to_item <$>
                      ((fun p => (p, user_id p.2 ≫= (fun k => Users db !! k)))
                         <$> merge_sort newer_first
                               (filter (fun p => approved_matches approved_is p = true)
                                       (map_to_list (ChargeRequests db))))))
            default_status,
       db, [SelectChargeRequests approved_is]) /\
    (param = Some "pending" -> approved_is = Some false) /\
    (param = Some "approved" -> approved_is = Some true) /\
    (param <> Some "pending" -> param <> Some "approved" -> approved_is = None).
Proof.
  unfold GET.
  set (status := match param with
                 | Some s => if String.eqb s "" then "all" else s
                 | None => "all"
                 end).
  exists (status_filter status). split; [reflexivity|].
  destruct param as [s|]; subst status; cbn beta iota.
  - destruct (String.eqb_spec s "") as [->|Hne].
    + repeat split; intros; try discriminate; try reflexivity.
    + unfold status_filter.
      destruct (String.eqb_spec s "pending") as [->|Hp];
        [repeat split; intros; try discriminate; try reflexivity; congruence|].
      destruct (String.eqb_spec s "approved") as [->|Ha];
        repeat split; intros; try discriminate; try reflexivity; congruence.
  - repeat split; intros; try discriminate; try reflexivity.
Qed.

Lemma rest_to_item (l : list (Z * ChargeRequest))
    (f : Z * ChargeRequest -> option User) :
  rest <$> (to_item <$> ((fun p => (p, f p)) <$> l)) = l.
Proof.
  induction l as [|p l IH]; [reflexivity|].
  cbn [fmap list_fmap] in *. rewrite IH. reflexivity.
Qed.

(** C10. What [GET] lists for a value of the [status] parameter: with
    [pending] exactly the requests whose approved flag is false, with
    [approved] exactly those whose flag is true, and with anything else (no
    parameter, an empty one, an unknown word) every request.  Each request
    is listed once, with the fields of the user it refers to, and nothing
    is written. *)
Theorem GET_filters_by_status param db :
  exists items,
    result (GET param db) = json (Items items) default_status /\
    final (GET param db) = db /\
    NoDup (rest <$> items) /\
    (forall it, it ∈ items ->
       it = to_item (rest it,
                     user_id (rest it).2 ≫= (fun k => Users db !! k))) /\
    (forall k r,
       (k, r) ∈ rest <$> items <->
       ChargeRequests db !! k = Some r /\
       (param = Some "pending" -> approved r = false) /\
       (param = Some "approved" -> approved r = true)).
Proof.
  destruct (GET_query param db) as (f & -> & Hpending & Happroved & Hall).
  eexists. split; [reflexivity|]. split; [reflexivity|].
  rewrite rest_to_item.
  split; [|split].
  - rewrite merge_sort_Permutation.
    apply NoDup_filter, NoDup_map_to_list.
  - intros it Hit.
    apply list_elem_of_fmap in Hit as (q & -> & Hq).
    apply list_elem_of_fmap in Hq as (p & -> & _). reflexivity.
  - intros k r. rewrite merge_sort_Permutation, list_elem_of_filter,
      elem_of_map_to_list.
    unfold approved_matches. cbn [snd].
    destruct (decide (param = Some "pending")) as [Hp|Hp];
      [|destruct (decide (param = Some "approved")) as [Ha|Ha]].
    + rewrite (Hpending Hp). subst param.
      destruct (approved r); cbn; split.
      * intros [? _]; discriminate.
      * intros (_ & H & _). specialize (H eq_refl). discriminate.
      * intros [_ ?]. repeat split; auto. discriminate.
      * intros [? _]. auto.
    + rewrite (Happroved Ha). subst param.
      destruct (approved r); cbn; split.
      * intros [_ ?]. repeat split; auto. discriminate.
      * intros [? _]. auto.
      * intros [? _]; discriminate.
      * intros (_ & _ & H). specialize (H eq_refl). discriminate.
    + rewrite (Hall Hp Ha). split.
      * intros [_ ?]. repeat split; auto; intros; contradiction.
      * intros [? _]. auto.
Qed.

End Listing.

(** ** The purchase workflow *)

Module Purchase.
Import Page.

(** [handlePurchase] sets neither the cart nor the quantity of the modal. *)
Lemma handlePurchase_keeps_cart time outcome st :
  selectedProducts (handlePurchase time outcome st).1 = selectedProducts st /\
  quantityInModal (handlePurchase time outcome st).1 = quantityInModal st.
Proof.
  unfold handlePurchase.
  destruct (length _ =? 0)%nat; [split; reflexivity|].
  destruct (balance st <? _); [split; reflexivity|].
  destruct outcome as [|[|] balance_after error]; split; reflexivity.
Qed.

Lemma step_keeps_quantities_positive e st :
  quantities_positive st -> quantities_positive (step e st).1.
Proof.
  intros [Hq Hall]. destruct e; cbn [step fst]; try (split; assumption).
  - (* openProductModal *)
    unfold openProductModal. destruct (truthy editId).
    + destruct (find _ _) as [existing|] eqn:Hfind; [|split; assumption].
      split; [|exact Hall]. cbn.
      apply find_some in Hfind as [Hin _].
      rewrite Forall_forall in Hall. apply Hall.
      apply list_elem_of_In, Hin.
    + split; [cbn; lia|exact Hall].
  - (* closeProductModal *)
    split; [cbn; lia|exact Hall].
  - (* decrease *)
    split; [cbn; lia|exact Hall].
  - (* increase *)
    split; [cbn; lia|exact Hall].
  - (* handleModalOk *)
    unfold handleModalOk. destruct (selectedProductInModal st) as [selected|];
      [|split; assumption].
    split; [cbn; lia|].
    destruct (truthy (editingProductId st)); cbn.
    + apply Forall_forall. intros p Hp.
      apply list_elem_of_In, in_map_iff in Hp as (p0 & <- & Hp0).
      destruct (String.eqb _ _); [exact Hq|].
      rewrite Forall_forall in Hall. apply Hall, list_elem_of_In, Hp0.
    + apply Forall_app. split; [exact Hall|]. repeat constructor. exact Hq.
  - (* removeProduct *)
    split; [exact Hq|]. cbn. apply Forall_forall. intros p Hp.
    apply list_elem_of_filter in Hp as [_ Hp].
    rewrite Forall_forall in Hall. apply Hall, Hp.
  - (* handleReceiptClose *)
    split; [exact Hq|]. cbn. constructor.
  - (* handlePurchase *)
    destruct (handlePurchase_keeps_cart time outcome (setConfirmOpen false st))
      as [Hcart Hmodal].
    unfold quantities_positive. rewrite Hcart, Hmodal. split; assumption.
Qed.

Lemma run_keeps_quantities_positive events st :
  quantities_positive st -> quantities_positive (run events st).
Proof.
  revert st. induction events as [|e events IH]; intros st Hst; [exact Hst|].
  cbn [run]. apply IH, step_keeps_quantities_positive, Hst.
Qed.




Lemma selected_list_length st :
  selectedProducts st <> [] ->
  (length (getSelectedProductsList st) =? 0)%nat = false.
Proof.
  unfold getSelectedProductsList.
  destruct (selectedProducts st); [congruence|reflexivity].
Qed.






(** Scenario B of the specification: a balance of 5000 and two items at
    2000; the purchase succeeds and the balance becomes 1000. *)
Example scenario_B_purchase :
  let out := handlePurchase "10:30" (Responded true None None) scenario_B in
  balance out.1 = 1000 /\
  (totalPrice <$> purchaseData out.1) = Some 4000 /\
  out.2 = [FetchPurchase (Some "09-123")
             [{| ApiItem.product_id := "3"; ApiItem.qty := 2;
                 ApiItem.price := 2000; ApiItem.total := 4000 |}];
           MutateBalance "/api/balance?phone=09123" 1000;
           Revalidate "/api/balance?phone=09123";
           PostBalanceChanged (Some "09-123") 1000].
Proof. vm_compute. repeat split; reflexivity. Qed.

End Purchase.

(** ** More on the route: creating, approving and listing together *)

Module Requests.
Import Js Store Route.

Ltac run_handler := Approval.run_handler.

Lemma GET_rows_query param db :
  exists approved_is,
    GET_rows param db
    = merge_sort newer_first
        (filter (fun p => approved_matches approved_is p = true)
                (map_to_list (ChargeRequests db))) /\
    (param = Some "pending" -> approved_is = Some false) /\
    (param = Some "approved" -> approved_is = Some true) /\
    (param <> Some "pending" -> param <> Some "approved" ->
     approved_is = None).
Proof.
  destruct (Listing.GET_query param db) as (f & Hget & Hcases).
  exists f. split; [|exact Hcases].
  unfold GET_rows. rewrite Hget. cbn [result body fst].
  apply Listing.rest_to_item.
Qed.


#[local] Instance newer_first_total : Total newer_first.
Proof.
  intros a b. unfold newer_first.
  destruct (requested_at a.2), (requested_at b.2); auto. lia.
Qed.

#[local] Instance newer_first_transitive : Transitive newer_first.
Proof.
  intros a b c. unfold newer_first.
  destruct (requested_at a.2), (requested_at b.2), (requested_at c.2);
    auto; try contradiction. lia.
Qed.




Lemma filter_partition (l : list (Z * ChargeRequest)) :
  filter (fun p => approved_matches None p = true) l
  ≡ₚ filter (fun p => approved_matches (Some false) p = true) l
     ++ filter (fun p => approved_matches (Some true) p = true) l.
Proof.
  induction l as [|p l IH]; [reflexivity|].
  rewrite !filter_cons.
  destruct (approved p.2) eqn:Hflag; repeat case_decide;
    unfold approved_matches in *; rewrite ?Hflag in *; cbn in *;
    try congruence; rewrite IH.
  - apply Permutation_middle.
  - reflexivity.
Qed.

(** X2. The three lists of [GET] fit together: what it lists without a
    filter is, up to order, what it lists as pending together with what it
    lists as approved; no request is in neither list and none in both. *)
Theorem GET_all_is_pending_with_approved param db :
  param <> Some "pending" ->
  param <> Some "approved" ->
  GET_rows param db
  ≡ₚ GET_rows (Some "pending") db ++ GET_rows (Some "approved") db.
Proof.
  intros Hp Ha.
  destruct (GET_rows_query param db) as (f & -> & _ & _ & Hall).
  destruct (GET_rows_query (Some "pending") db) as (fp & -> & Hfp & _).
  destruct (GET_rows_query (Some "approved") db) as (fa & -> & _ & Hfa & _).
  rewrite (Hall Hp Ha), (Hfp eq_refl), (Hfa eq_refl).
  rewrite !merge_sort_Permutation. apply filter_partition.
Qed.

Lemma GET_all_is_pending_with_approved_witness :
  GET_rows (Some "everything") three_requests
  ≡ₚ GET_rows (Some "pending") three_requests
     ++ GET_rows (Some "approved") three_requests.
Proof.
  apply (GET_all_is_pending_with_approved (Some "everything") three_requests);
    discriminate.
Defined.








(** X5. [PUT] reads the id through [Number]: two ids with the same numeric
    reading, such as the number 1, the string "1" and the array [[1]], are
    one and the same request to it, in answer, database and store
    operations. *)
Theorem approve_reads_id_as_number now id1 id2 db :
  is_nullish id1 = false ->
  is_nullish id2 = false ->
  Number id1 = Number id2 ->
  approve now id1 db = approve now id2 db.
Proof.
  intros H1 H2 Hsame. unfold approve, PUT. cbn -[Number].
  rewrite H1, H2, Hsame. reflexivity.
Qed.

Lemma approve_reads_id_as_number_witness :
  approve "t" (JsString " 1 ") scenario_A
  = approve "t" (JsArray [JsNumber one]) scenario_A.
Proof.
  apply (approve_reads_id_as_number "t" (JsString " 1 ")
           (JsArray [JsNumber one]) scenario_A);
    vm_compute; reflexivity.
Defined.

(** X6. [PUT] neither creates nor deletes a row: whatever the body and the
    answer, both tables keep their sets of ids and both sequences their
    values. *)
Theorem PUT_keeps_the_rows now parsed db :
  dom (ChargeRequests (final (PUT now parsed db))) = dom (ChargeRequests db) /\
  dom (Users (final (PUT now parsed db))) = dom (Users db) /\
  ChargeRequests_seq (final (PUT now parsed db)) = ChargeRequests_seq db /\
  Users_seq (final (PUT now parsed db)) = Users_seq db.
Proof.
  unfold PUT.
  destruct (destructure_id _) as [id|]; [|repeat split].
  destruct (is_nullish id); [repeat split|].
  destruct (Number id) as [idNum|]; [|repeat split].
  destruct (Number_isFinite idNum); [|repeat split].
  cbn [negb]. run_handler.
  destruct (eq_id idNum) as [k|]; cbn [mbind option_bind]; [|repeat split].
  destruct (ChargeRequests db !! k) as [r|]; [|repeat split].
  destruct (approved r); [repeat split|]. cbn.
  destruct (user_id r ≫= _) as [u|]; cbn.
  - destruct (user_id r); cbn; repeat split; apply dom_alter_L.
  - repeat split. apply dom_alter_L.
Qed.

(** X7. [PUT] writes only on two of its answers: unless it answers success
    with a new balance or 404 "user not found", the database after it is
    the database before it. *)
Theorem PUT_writes_only_when_approving now parsed db :
  final (PUT now parsed db) = db \/
  (exists newBalance,
     result (PUT now parsed db) = json (Approved newBalance) 200) \/
  result (PUT now parsed db) = json (Failure "user not found") 404.
Proof.
  unfold PUT.
  destruct (destructure_id _) as [id|]; [|left; reflexivity].
  destruct (is_nullish id); [left; reflexivity|].
  destruct (Number id) as [idNum|]; [|left; reflexivity].
  destruct (Number_isFinite idNum); [|left; reflexivity].
  cbn [negb]. run_handler.
  destruct (eq_id idNum ≫= _) as [r|]; cbn [mbind option_bind];
    [|left; reflexivity].
  destruct (approved r); [left; reflexivity|]. cbn.
  destruct (user_id r ≫= _) as [u|]; cbn; eauto.
Qed.

Ltac run_POST :=
  unfold POST, bind, ret, findUserByPhone, insert_user, insert_request,
    notifyAdmins, result, final, trace in *;
  cbn [fst snd] in *.

(** X8. A charge request for a phone that has a user: [POST] stores one new
    row, pending, with the amount asked and that user, under the next id of
    the sequence, and answers with that id.  No other request and no user
    changes, and the administrators are notified when push is ready and
    only then. *)
Theorem POST_adds_a_pending_request phone amount pushReady t uid db :
  result (findUserByPhone phone db) = Some uid ->
  ChargeRequests db !! ChargeRequests_seq db = None ->
  let out := POST (Some (phone, amount)) pushReady t db in
  let k := ChargeRequests_seq db in
  result out = json (Created k) default_status /\
  ChargeRequests (final out) !! k
  = Some {| user_id := Some uid; amount := Some amount; approved := false;
            requested_at := t |} /\
  (forall k', k' <> k ->
     ChargeRequests (final out) !! k' = ChargeRequests db !! k') /\
  Users (final out) = Users db /\
  (NotifyAdmins ∈ trace out <-> pushReady = true).
Proof.
  intros Hfound Hfree. run_POST. rewrite Hfound, Hfree.
  destruct pushReady; cbn; repeat split;
    try apply lookup_insert_eq;
    try (intros k' Hne; apply lookup_insert_ne; congruence);
    try discriminate.
  - intros _. apply list_elem_of_In. cbn. auto.
  - intros Hin. apply list_elem_of_In in Hin. cbn in Hin.
    intuition discriminate.
Qed.

Lemma POST_adds_a_pending_request_witness :
  let out := POST (Some ("09123", 700)) true (Some 11) scenario_A in
  result out = json (Created 2) default_status /\
  ChargeRequests (final out) !! 2
  = Some {| user_id := Some 7; amount := Some 700; approved := false;
            requested_at := Some 11 |} /\
  (forall k', k' <> 2 ->
     ChargeRequests (final out) !! k' = ChargeRequests scenario_A !! k') /\
  Users (final out) = Users scenario_A /\
  (NotifyAdmins ∈ trace out <-> true = true).
Proof.
  apply (POST_adds_a_pending_request "09123" 700 true (Some 11) 7 scenario_A);
    vm_compute; reflexivity.
Defined.







Lemma POST_keeps_users parsed pushReady t db uid u :
  Users db !! uid = Some u ->
  Users (final (POST parsed pushReady t db)) !! uid = Some u.
Proof.
  intros Hu. destruct parsed as [[phone amount]|]; [|exact Hu]. run_POST.
  destruct (fst <$> head _) as [userId|].
  - destruct (ChargeRequests db !! ChargeRequests_seq db);
      [|destruct pushReady]; exact Hu.
  - destruct (Users db !! Users_seq db) eqn:Hseq; cbn; [exact Hu|].
    assert (Users_seq db <> uid) as Hne by congruence.
    destruct (ChargeRequests db !! ChargeRequests_seq db);
      [|destruct pushReady]; cbn; rewrite lookup_insert_ne by exact Hne;
      exact Hu.
Qed.

(** X11. Only [PUT] changes a balance: after any requests to the route
    among which there is no [PUT], every user that had a row has the very
    same row, balance and charge date included. *)
Theorem only_PUT_changes_a_user calls db uid u :
  forallb (fun c => negb (is_PUT c)) calls = true ->
  Users db !! uid = Some u ->
  Users (serve calls db) !! uid = Some u.
Proof.
  revert db. induction calls as [|c calls IH]; intros db Hcalls Hu;
    [exact Hu|].
  cbn [forallb] in Hcalls. apply andb_prop in Hcalls as [Hc Hcalls].
  cbn [serve]. apply IH; [exact Hcalls|].
  destruct c; cbn [handle]; try exact Hu; [|discriminate].
  apply POST_keeps_users, Hu.
Qed.

Lemma only_PUT_changes_a_user_witness :
  Users
    (serve [CallPOST (Some ("09123", 700)) true (Some 11); CallGET None;
            CallPOST (Some ("0977", 900)) false None; CallOPTIONS]
       scenario_A) !! 7
  = Some {| phone_number := "09123"; balance := Some 0;
            Store.last_charge_date := "" |}.
Proof.
  apply (only_PUT_changes_a_user _ scenario_A 7); vm_compute; reflexivity.
Defined.

Lemma POST_adds_only_pending parsed pushReady t db k r :
  ChargeRequests (final (POST parsed pushReady t db)) !! k = Some r ->
  ChargeRequests db !! k = Some r \/ approved r = false.
Proof.
  destruct parsed as [[phone amount]|]; [|auto].
  assert (forall (x : ChargeRequest) (m : gmap Z ChargeRequest) i,
            <[i := x]> m !! k = Some r ->
            approved x = false ->
            m !! k = Some r \/ approved r = false) as Hins.
  { intros x m i Hx Hpending. rewrite lookup_insert in Hx.
    case_decide; [right; congruence|left; exact Hx]. }
  unfold POST, bind, ret, findUserByPhone, insert_user, insert_request,
    notifyAdmins, final.
  cbn [fst snd].
  destruct (fst <$> head _) as [userId|].
  - destruct (ChargeRequests db !! ChargeRequests_seq db);
      [|destruct pushReady]; cbn; intros H; try (left; exact H);
      exact (Hins _ _ _ H eq_refl).
  - destruct (Users db !! Users_seq db); cbn; [intros H; left; exact H|].
    destruct (ChargeRequests db !! ChargeRequests_seq db);
      [|destruct pushReady]; cbn; intros H; try (left; exact H);
      exact (Hins _ _ _ H eq_refl).
Qed.

(** X12. Only [PUT] approves: after any requests to the route among which
    there is no [PUT], a request that is approved was approved before
    them, with the same row; [POST] never stores an approved request. *)
Theorem only_PUT_approves calls db k r :
  forallb (fun c => negb (is_PUT c)) calls = true ->
  ChargeRequests (serve calls db) !! k = Some r ->
  approved r = true ->
  ChargeRequests db !! k = Some r.
Proof.
  revert db. induction calls as [|c calls IH]; intros db Hcalls Hr Happroved;
    [exact Hr|].
  cbn [forallb] in Hcalls. apply andb_prop in Hcalls as [Hc Hcalls].
  cbn [serve] in Hr. specialize (IH _ Hcalls Hr Happroved).
  destruct c; cbn [handle] in IH; try exact IH; [|discriminate].
  destruct (POST_adds_only_pending _ _ _ _ _ _ IH); [assumption|congruence].
Qed.

Lemma only_PUT_approves_witness :
  ChargeRequests three_requests !! 1
  = Some {| user_id := Some 7; amount := Some 100; approved := true;
            requested_at := Some 2020 |}.
Proof.
  apply (only_PUT_approves
           [CallPOST (Some ("09123", 700)) true (Some 11);
            CallGET (Some "approved")]);
    vm_compute; reflexivity.
Defined.

(** X25. [PUT] wants an id: a body that cannot be parsed, a body that is
    not an object (an array, a string, a number, a boolean), and an object
    whose [id] is missing or [null] are all answered 400 "id is required"
    before the store is asked anything; the one body that is the literal
    [null] is answered 500, with the message of the exception its
    destructuring throws. *)
Theorem PUT_requires_an_id now parsed db :
  (match parsed with
   | None => True
   | Some (JsObject props) =>
       own_property "id" props = None \/
       own_property "id" props = Some JsNull
   | Some JsNull | Some JsUndefined => False
   | Some _ => True
   end ->
   PUT now parsed db = (json (Failure "id is required") 400, db, [])) /\
  (parsed = Some JsNull ->
   PUT now parsed db = (json (Failure TypeError_destructure_null) 500, db, [])).
Proof.
  split.
  - destruct parsed as [[| | | | | |props]|]; intros H; try reflexivity;
      try contradiction.
    unfold PUT.
    change (default (JsObject []) (Some (JsObject props)))
      with (JsObject props).
    unfold destructure_id. destruct H as [-> | ->]; reflexivity.
  - intros ->. reflexivity.
Qed.

End Requests.

(** ** More on the purchase page: the search, the cart and the purchase *)

Module Cart.
Import Page.

Lemma lower_white_space c :
  Js.is_StrWhiteSpaceChar (lower c) = Js.is_StrWhiteSpaceChar c.
Proof. destruct c as [[] [] [] [] [] [] [] []]; reflexivity. Qed.

Lemma drop_ws_nil l :
  Js.drop_ws l = [] <-> forallb Js.is_StrWhiteSpaceChar l = true.
Proof.
  induction l as [|c l IH]; cbn; [tauto|].
  destruct (Js.is_StrWhiteSpaceChar c); cbn; [exact IH|].
  split; discriminate.
Qed.

Lemma drop_ws_snoc l c :
  Js.is_StrWhiteSpaceChar c = false -> Js.drop_ws (l ++ [c]) <> [].
Proof.
  intros Hc. induction l as [|d l IH]; cbn.
  - rewrite Hc. discriminate.
  - destruct (Js.is_StrWhiteSpaceChar d); [exact IH|discriminate].
Qed.

(** A query is blank exactly when each of its code units is white space. *)
Lemma blank_forallb q :
  blank q = forallb Js.is_StrWhiteSpaceChar (list_ascii_of_string q).
Proof.
  unfold blank, Js.trim. set (l := list_ascii_of_string q).
  destruct (forallb _ l) eqn:Hall.
  - apply drop_ws_nil in Hall. rewrite Hall. reflexivity.
  - destruct (Js.drop_ws l) as [|c l'] eqn:Hdrop.
    { apply drop_ws_nil in Hdrop. congruence. }
    assert (Js.is_StrWhiteSpaceChar c = false) as Hc.
    { clear Hall. induction l as [|d l IH]; [discriminate|]. cbn in Hdrop.
      destruct (Js.is_StrWhiteSpaceChar d) eqn:Hd; [exact (IH Hdrop)|].
      congruence. }
    cbn [rev]. pose proof (drop_ws_snoc (rev l') c Hc) as Hne.
    destruct (Js.drop_ws (rev l' ++ [c])) as [|e l'']; [congruence|].
    cbn [rev]. destruct (rev l''); reflexivity.
Qed.

Lemma blank_toLowerCase q : blank (toLowerCase q) = blank q.
Proof.
  rewrite !blank_forallb. induction q as [|c q IH]; [reflexivity|].
  cbn. rewrite lower_white_space, IH. reflexivity.
Qed.

(** X13. The search does not look at case: two queries that are the same
    once in lower case select the same products. *)
Theorem search_ignores_case products q1 q2 :
  toLowerCase q1 = toLowerCase q2 ->
  filteredProducts products q1 = filteredProducts products q2.
Proof.
  intros Hsame. unfold filteredProducts.
  rewrite <- (blank_toLowerCase q1), <- (blank_toLowerCase q2), Hsame.
  reflexivity.
Qed.

Lemma search_ignores_case_witness :
  filteredProducts catalogue "TeA" = filteredProducts catalogue "tEa".
Proof.
  apply (search_ignores_case catalogue "TeA" "tEa"). reflexivity.
Defined.

Lemma prefix_refl s : String.prefix s s = true.
Proof.
  induction s as [|c s IH]; [reflexivity|].
  cbn. destruct (ascii_dec c c); [exact IH|congruence].
Qed.

Lemma includes_refl s : includes s s = true.
Proof. destruct s; cbn [includes]; rewrite prefix_refl; reflexivity. Qed.

(** X14. The search selects from the catalogue and never adds to it or
    reorders it: the result is a sublist of the products, it is all of them
    for a query that is empty or white space only, and a product is always
    found by its full name, in any case. *)
Theorem search_selects_from_the_catalogue products q :
  sublist (filteredProducts products q) products /\
  (forallb Js.is_StrWhiteSpaceChar (list_ascii_of_string q) = true ->
   filteredProducts products q = products) /\
  (forall p, In p products ->
     toLowerCase (Product.name p) = toLowerCase q ->
     In p (filteredProducts products q)).
Proof.
  unfold filteredProducts. rewrite blank_forallb.
  destruct (forallb _ _); (split; [|split]).
  - reflexivity.
  - reflexivity.
  - auto.
  - induction products as [|p l IH]; cbn; [constructor|].
    destruct (includes _ _); [apply sublist_skip|apply sublist_cons];
      exact IH.
  - discriminate.
  - intros p Hin Hname. apply filter_In. split; [exact Hin|].
    rewrite Hname. apply includes_refl.
Qed.



Lemma run_app events1 events2 st :
  run (events1 ++ events2) st = run events2 (run events1 st).
Proof.
  revert st. induction events1 as [|e events1 IH]; intros st; [reflexivity|].
  cbn [run app]. apply IH.
Qed.

Lemma run_increase n st :
  run (replicate n IncreaseQuantity) st
  = setQuantityInModal (quantityInModal st + Z.of_nat n) st.
Proof.
  revert st. induction n as [|n IH]; intros st.
  - destruct st. cbn. unfold setQuantityInModal. cbn. f_equal. lia.
  - cbn [replicate run step fst]. rewrite IH.
    unfold setQuantityInModal. cbn. f_equal. lia.
Qed.

(** X16. Editing an item: opening the modal on a line of the cart, pressing
    plus [n] times and OK changes nothing but the quantity, which goes up
    by [n]: the line keeps its id, its product and its place, every line
    with another id is untouched and no line is added. *)
Theorem editing_changes_only_the_quantity id existing n now st :
  id <> "" ->
  find (fun p => String.eqb (SelectedProduct.id p) id) (selectedProducts st)
  = Some existing ->
  selectedProducts
    (run (OpenProductModal (Some id) :: replicate n IncreaseQuantity
          ++ [ModalOk now]) st)
  = map (fun p =>
           if String.eqb (SelectedProduct.id p) id
           then {| SelectedProduct.id := id;
                   SelectedProduct.product := SelectedProduct.product existing;
                   SelectedProduct.quantity :=
                     SelectedProduct.quantity existing + Z.of_nat n |}
           else p)
        (selectedProducts st).
Proof.
  intros Hid Hfind. cbn [run step fst]. rewrite run_app, run_increase.
  assert (truthy (Some id) = true) as Htruthy.
  { cbn. destruct (String.eqb_spec id ""); [contradiction|reflexivity]. }
  unfold openProductModal. rewrite Htruthy.
  change (default "" (Some id)) with id. rewrite Hfind. cbn [run step fst]. unfold handleModalOk. cbn.
  destruct (String.eqb_spec id ""); [contradiction|]. reflexivity.
Qed.

Lemma editing_changes_only_the_quantity_witness :
  selectedProducts
    (run (OpenProductModal (Some "1700000000000")
          :: replicate 3 IncreaseQuantity ++ [ModalOk "1700000000009"])
       scenario_B)
  = map (fun p =>
           if String.eqb (SelectedProduct.id p) "1700000000000"
           then {| SelectedProduct.id := "1700000000000";
                   SelectedProduct.product :=
                     SelectedProduct.product
                       {| SelectedProduct.id := "1700000000000";
                          SelectedProduct.product := tea;
                          SelectedProduct.quantity := 2 |};
                   SelectedProduct.quantity :=
                     SelectedProduct.quantity
                       {| SelectedProduct.id := "1700000000000";
                          SelectedProduct.product := tea;
                          SelectedProduct.quantity := 2 |}
                     + Z.of_nat 3 |}
           else p)
        (selectedProducts scenario_B).
Proof.
  apply (editing_changes_only_the_quantity "1700000000000"
           {| SelectedProduct.id := "1700000000000";
              SelectedProduct.product := tea;
              SelectedProduct.quantity := 2 |} 3 "1700000000009" scenario_B).
  - discriminate.
  - vm_compute. reflexivity.
Defined.

Lemma filter_all {A} (P : A -> Prop) `{forall x, Decision (P x)} (l : list A) :
  (forall x, In x l -> P x) -> filter P l = l.
Proof.
  induction l as [|x l IH]; intros Hall; [reflexivity|].
  rewrite filter_cons_True by (apply Hall; left; reflexivity).
  f_equal. apply IH. intros y Hy. apply Hall. right. exact Hy.
Qed.

(** X17. Adding an item and removing it again gives back the cart as it
    was, provided no line of the cart already had the id the new line got
    from the clock. *)
Theorem removing_the_added_item now p st :
  truthy (editingProductId st) = false ->
  selectedProductInModal st = Some p ->
  (forall row, In row (selectedProducts st) -> SelectedProduct.id row <> now) ->
  selectedProducts (removeProduct now (handleModalOk now st))
  = selectedProducts st.
Proof.
  intros Hadd Hp Hfresh. unfold handleModalOk. rewrite Hp, Hadd. cbn.
  rewrite filter_app, (filter_all _ _ Hfresh).
  rewrite filter_cons_False by (cbn; intros Hne; apply Hne; reflexivity).
  rewrite filter_nil. apply app_nil_r.
Qed.

Lemma removing_the_added_item_witness :
  selectedProducts
    (removeProduct "1700000000001"
       (handleModalOk "1700000000001"
          (run [OpenProductModal None; ProductSelect tea] scenario_B)))
  = selectedProducts
      (run [OpenProductModal None; ProductSelect tea] scenario_B).
Proof.
  apply (removing_the_added_item "1700000000001" tea).
  - reflexivity.
  - reflexivity.
  - vm_compute. intros row [<-|[]]. discriminate.
Defined.

(** X18. [handlePurchase] calls the API only for a cart that has items and
    that the balance covers, and then with the phone of the page and these
    very items: whenever a request is among its effects, all of this
    holds. *)
Theorem purchase_request_needs_cover time outcome st ph items :
  In (FetchPurchase ph items) (handlePurchase time outcome st).2 ->
  selectedProducts st <> [] /\
  getTotalPrice st <= balance st /\
  ph = phone st /\
  items = map to_api_item (getSelectedProductsList st).
Proof.
  unfold handlePurchase, getSelectedProductsList.
  destruct (selectedProducts st) as [|row rows] eqn:Hcart; cbn [map length].
  { cbn. intros [Hx|[]]. discriminate. }
  cbn [Nat.eqb].
  destruct (Z.ltb_spec (balance st) (getTotalPrice st)) as [Hshort|Hcovers].
  { cbn. intros [Hx|[]]. discriminate. }
  intros Hin.
  assert (FetchPurchase ph items
          = FetchPurchase (phone st)
              (map to_api_item
                 (map (fun row =>
                         {| ListItem.id :=
                              Product.id (SelectedProduct.product row);
                            ListItem.name :=
                              Product.name (SelectedProduct.product row);
                            ListItem.price :=
                              Product.price (SelectedProduct.product row);
                            ListItem.quantity :=
                              SelectedProduct.quantity row |})
                      (row :: rows)))) as Heq.
  { destruct outcome as [|[|] balance_after error]; cbn in Hin.
    - destruct Hin as [Hx|[Hx|[Hx|[]]]]; try discriminate; auto.
    - destruct Hin as [Hx|Hin]; [auto|].
      destruct (balanceKey st); cbn in Hin;
        repeat (destruct Hin as [Hx|Hin]; [discriminate|]); destruct Hin.
    - destruct Hin as [Hx|[Hx|[]]]; try discriminate; auto. }
  injection Heq as -> ->. repeat split; [discriminate|lia].
Qed.

Lemma purchase_request_needs_cover_witness :
  selectedProducts scenario_B <> [] /\
  getTotalPrice scenario_B <= balance scenario_B /\
  Some "09-123" = phone scenario_B /\
  [{| ApiItem.product_id := "3"; ApiItem.qty := 2; ApiItem.price := 2000;
      ApiItem.total := 4000 |}]
  = map to_api_item (getSelectedProductsList scenario_B).
Proof.
  apply (purchase_request_needs_cover "10:30" Rejected scenario_B).
  vm_compute. left. reflexivity.
Defined.

(** X19. A purchase that does not get an ok response changes nothing on the
    page: whether the call is rejected or answered with an error, the
    state (cart, balance, receipt) is as before, nothing is written to the
    balance cache, nothing is broadcast, and the user gets an alert. *)
Theorem failed_purchase_changes_nothing time outcome st :
  (forall balance_after error, outcome <> Responded true balance_after error) ->
  let out := handlePurchase time outcome st in
  out.1 = st /\
  (exists message, In (Alert message) out.2) /\
  (forall e, In e out.2 ->
     match e with
     | MutateBalance _ _ | Revalidate _ | PostBalanceChanged _ _ => False
     | _ => True
     end).
Proof.
  intros Hfailed. unfold handlePurchase.
  destruct (length _ =? 0)%nat.
  { cbn. repeat split; eauto. intros e [<-|[]]. exact I. }
  destruct (balance st <? getTotalPrice st).
  { cbn. repeat split; eauto. intros e [<-|[]]. exact I. }
  destruct outcome as [|[|] balance_after error].
  - cbn. repeat split; eauto. intros e [<-|[<-|[<-|[]]]]; exact I.
  - exfalso. exact (Hfailed _ _ eq_refl).
  - cbn. repeat split; eauto. intros e [<-|[<-|[]]]; exact I.
Qed.

Lemma failed_purchase_changes_nothing_witness :
  let out := handlePurchase "10:30" (Responded false None (Some "{}"))
               scenario_B in
  out.1 = scenario_B /\
  (exists message, In (Alert message) out.2) /\
  (forall e, In e out.2 ->
     match e with
     | MutateBalance _ _ | Revalidate _ | PostBalanceChanged _ _ => False
     | _ => True
     end).
Proof.
  apply (failed_purchase_changes_nothing "10:30"
           (Responded false None (Some "{}")) scenario_B).
  discriminate.
Defined.



(** X21. After the receipt is closed the cart is empty: the receipt is gone,
    the total is 0, the balance is the one the purchase left, and a second
    confirmation buys nothing, it only alerts "Please select items". *)
Theorem closing_the_receipt_empties_the_cart
    time balance_after error time' outcome st :
  selectedProducts st <> [] ->
  getTotalPrice st <= balance st ->
  let paid := (handlePurchase time (Responded true balance_after error) st).1 in
  let closed := handleReceiptClose paid in
  showReceipt paid = true /\
  selectedProducts closed = [] /\
  getTotalPrice closed = 0 /\
  showReceipt closed = false /\
  purchaseData closed = None /\
  balance closed = balance paid /\
  handlePurchase time' outcome closed
  = (closed, [Alert "Please select items"]).
Proof.
  intros Hcart Hcovers. unfold handlePurchase at 1 2.
  rewrite (Purchase.selected_list_length st Hcart).
  destruct (Z.ltb_spec (balance st) (getTotalPrice st)); [lia|].
  cbn. repeat split.
Qed.

Lemma closing_the_receipt_empties_the_cart_witness :
  let paid :=
    (handlePurchase "10:30" (Responded true (Some 1000) None) scenario_B).1 in
  let closed := handleReceiptClose paid in
  showReceipt paid = true /\
  selectedProducts closed = [] /\
  getTotalPrice closed = 0 /\
  showReceipt closed = false /\
  purchaseData closed = None /\
  balance closed = balance paid /\
  handlePurchase "10:31" Rejected closed
  = (closed, [Alert "Please select items"]).
Proof.
  apply (closing_the_receipt_empties_the_cart "10:30" (Some 1000) None
           "10:31" Rejected scenario_B).
  - vm_compute. discriminate.
  - vm_compute. discriminate.
Defined.

Lemma truthy_Some s : s <> "" -> truthy (Some s) = true.
Proof.
  intros Hs. cbn. destruct (String.eqb_spec s ""); [contradiction|reflexivity].
Qed.

(** X22. The key under which the balance is cached depends on the digits of
    the phone only: two pages whose phones have the same digits, however
    they are written, use the same key; and a phone without any digit has
    no key at all. *)
Theorem balance_key_ignores_formatting p1 p2 st1 st2 :
  phone st1 = Some p1 ->
  phone st2 = Some p2 ->
  p1 <> "" ->
  p2 <> "" ->
  digits_only p1 = digits_only p2 ->
  balanceKey st1 = balanceKey st2 /\
  (digits_only p1 = "" -> balanceKey st1 = None).
Proof.
  intros H1 H2 Hp1 Hp2 Hsame. unfold balanceKey, normalizedPhone.
  rewrite H1, H2, (truthy_Some p1 Hp1), (truthy_Some p2 Hp2).
  cbn [fmap option_fmap option_map]. rewrite Hsame. split; [reflexivity|].
  intros Hnone. rewrite Hnone. reflexivity.
Qed.

Lemma balance_key_ignores_formatting_witness :
  balanceKey scenario_B
  = balanceKey (setPhone (Some "(09) 1 2-3") scenario_B) /\
  (digits_only "09-123" = "" -> balanceKey scenario_B = None).
Proof.
  apply (balance_key_ignores_formatting "09-123" "(09) 1 2-3").
  - reflexivity.
  - reflexivity.
  - discriminate.
  - discriminate.
  - reflexivity.
Defined.

(** X23. The broadcast of a purchase reaches the right tabs: a tab that has
    a balance key refreshes its balance on the message a purchase posts
    exactly when the phone of the purchase and its own phone have the same
    digits; a purchase made without a phone refreshes no tab that has
    one. *)
Theorem purchase_broadcast_refreshes_same_phone sender newBal key st :
  balanceKey st = Some key ->
  onBalanceMessage (posted (PostBalanceChanged sender newBal)) st
  = if String.eqb (digits_only (default "" sender))
                  (digits_only (default "" (phone st)))
    then [Revalidate key] else [].
Proof.
  intros Hkey. unfold onBalanceMessage. rewrite Hkey. cbn [posted].
  unfold balanceKey in Hkey.
  destruct (truthy (normalizedPhone st)) eqn:Hnorm; [|discriminate].
  cbn [negb orb]. unfold normalizedPhone in *.
  destruct (truthy (phone st)) eqn:Hphone; [|discriminate].
  destruct (phone st) as [p|]; [|discriminate]. cbn [fmap option_fmap option_map default].
  change (default "" (Some (digits_only p))) with (digits_only p).
  destruct sender as [s0|]; cbn [truthy default].
  - destruct (String.eqb_spec s0 "") as [->|Hne]; reflexivity.
  - reflexivity.
Qed.

Lemma purchase_broadcast_refreshes_same_phone_witness :
  onBalanceMessage (posted (PostBalanceChanged (Some "0 9 1 2 3") 1000))
    scenario_B
  = if String.eqb (digits_only (default "" (Some "0 9 1 2 3")))
                  (digits_only (default "" (phone scenario_B)))
    then [Revalidate "/api/balance?phone=09123"] else [].
Proof.
  apply (purchase_broadcast_refreshes_same_phone (Some "0 9 1 2 3") 1000
           "/api/balance?phone=09123" scenario_B).
  reflexivity.
Defined.

(** X24. No quantity on the page ever falls below 1: whatever the user
    does, from the first render on, the quantity shown in the modal and the
    quantity of every selected item are at least 1, so that the minus
    button cannot bring a line to zero or below. *)
Theorem quantities_never_fall_below_one events :
  1 <= quantityInModal (run events initial) /\
  Forall (fun it => 1 <= ListItem.quantity it)
         (getSelectedProductsList (run events initial)).
Proof.
  destruct (Purchase.run_keeps_quantities_positive events initial)
    as [Hmodal Hcart].
  { split; [cbn; lia|constructor]. }
  split; [exact Hmodal|].
  unfold getSelectedProductsList. apply Forall_forall. intros it Hit.
  apply list_elem_of_In, in_map_iff in Hit as (row & <- & Hrow). cbn.
  rewrite Forall_forall in Hcart. apply Hcart, list_elem_of_In, Hrow.
Qed.

End Cart.
